(** * salt/states/sysctl.py: the [present] state of the sysctl state module

    A shallow embedding of [present(name, value, config=None)] together with
    the Python primitives it relies on ([str], [str.split], [in] on strings,
    dictionary subscription, [try]/[except]) and the execution-module
    functions it reaches through [__salt__]. *)

From Stdlib Require Import ZArith Ascii String.
From stdpp Require Import gmap strings list fin_maps pretty.

Local Open Scope string_scope.
Local Open Scope Z_scope.

(** ** Python values and string primitives *)

Module Py.

(** The scalar values a state argument can hold once the YAML of an SLS
    file has been loaded ([- value: 20] gives an integer). *)
Inductive value : Type :=
| PNone
| PBool (b : bool)
| PInt (z : Z)
| PStr (s : string).

Global Instance value_eq_dec : EqDecision value.
Proof. solve_decision. Defined.

(** [str(v)], which is also what [format] substitutes for a bare
    replacement field such as [{1}]. *)
Definition str (v : value) : string :=
  match v with
  | PNone => "None"
  | PBool true => "True"
  | PBool false => "False"
  | PInt z => pretty z
  | PStr s => s
  end.

(** [c.isspace()] for a byte string: space, [\t], [\n], [\v], [\f], [\r]. *)
Definition isspace (c : ascii) : bool :=
  let n := Ascii.N_of_ascii c in
  (N.eqb n 32 || (N.leb 9 n && N.leb n 13))%N.

(** [split_from tok s]: the scan of [s.split()], [tok] being the token
    read so far. Runs of white space separate tokens and no empty token
    is produced. *)
Fixpoint split_from (tok : string) (s : string) : list string :=
  match s with
  | EmptyString =>
      match tok with EmptyString => [] | _ => [tok] end
  | String c rest =>
      if isspace c then
        match tok with
        | EmptyString => split_from EmptyString rest
        | _ => tok :: split_from EmptyString rest
        end
      else split_from (tok ++ String c EmptyString) rest
  end.

(** [s.split()] *)
Definition split (s : string) : list string := split_from EmptyString s.

(** [a.split() == b.split()] *)
Definition split_eq (a b : string) : bool :=
  bool_decide (split a = split b).

(** [s.startswith(p)] *)
Fixpoint startswith (p s : string) : bool :=
  match p, s with
  | EmptyString, _ => true
  | String a p', String b s' => if Ascii.eqb a b then startswith p' s' else false
  | String _ _, EmptyString => false
  end.

(** [sub in s] on strings. *)
Fixpoint contains (sub s : string) : bool :=
  startswith sub s ||
  match s with
  | EmptyString => false
  | String _ s' => contains sub s'
  end.

End Py.

(** ** Exceptions, the loader dictionary and the state's return value *)

(** The two exceptions that can arise while [present] runs: subscripting a
    dictionary with a key it lacks, and the failure of an execution-module
    command. *)
Inductive exn : Type :=
| KeyError (key : string)
| CommandExecutionError (msg : string).

(** What a call of [sysctl.persist] does: raise [CommandExecutionError] or
    return a status string. *)
Inductive persist_outcome : Type :=
| PersistRaises (msg : string)
| PersistReturns (update : string).

(** [__salt__], restricted to the four functions [present] looks up.
    [World] is the state of the minion (running kernel and files).
    [sysctl.get], [sysctl.show] and [sysctl.default_config] only read it;
    [sysctl.persist] may change it. [sysctl.default_config] is the one
    entry whose presence the state tests with [in]. *)
Record Salt (World : Type) : Type := {
  sysctl_get : string → World → string;
  sysctl_show : string → World → gmap string Py.value;
  sysctl_default_config : option (World → string);
  sysctl_persist : string → Py.value → string → World → persist_outcome * World
}.
Arguments sysctl_get {World}.
Arguments sysctl_show {World}.
Arguments sysctl_default_config {World}.
Arguments sysctl_persist {World}.

(** The calls made through [__salt__], in the order they happen. *)
Inductive call : Type :=
| CallGet (name : string)
| CallDefaultConfig
| CallShow (config_file : string)
| CallPersist (name : string) (value : Py.value) (config : string).

Global Instance call_eq_dec : EqDecision call.
Proof. solve_decision. Defined.

(** The dictionary [ret] that a state function hands back. [result] is
    [True], [False] or [None]. *)
Module Ret.
Record t : Type := {
  name : string;
  result : option bool;
  changes : gmap string Py.value;
  comment : string
}.

(** [ret['result'] = r] *)
Definition set_result (r : option bool) (ret : t) : t :=
  {| name := name ret; result := r; changes := changes ret; comment := comment ret |}.

(** [ret['changes'] = c] *)
Definition set_changes (c : gmap string Py.value) (ret : t) : t :=
  {| name := name ret; result := result ret; changes := c; comment := comment ret |}.

(** [ret['comment'] = c] *)
Definition set_comment (c : string) (ret : t) : t :=
  {| name := name ret; result := result ret; changes := changes ret; comment := c |}.
End Ret.

(** ** Computations: minion state, call log and exceptions *)

Record state (World : Type) : Type := {
  world : World;
  calls : list call
}.
Arguments world {World}.
Arguments calls {World}.

Inductive outcome (A : Type) : Type :=
| Returns (a : A)
| Raises (e : exn).
Arguments Returns {A}.
Arguments Raises {A}.

Definition M (World A : Type) : Type := state World → outcome A * state World.

Global Instance M_ret {World} : MRet (M World) :=
  λ A a s, (Returns a, s).

Global Instance M_bind {World} : MBind (M World) :=
  λ A B f m s,
    match m s with
    | (Returns a, s') => f a s'
    | (Raises e, s') => (Raises e, s')
    end.

(** [raise e] *)
Definition raise {World A} (e : exn) : M World A :=
  λ s, (Raises e, s).

(** [try: body except CommandExecutionError as exc: handler]; any other
    exception passes through. *)
Definition try_except {World A}
    (body : M World A) (handler : string → M World A) : M World A :=
  λ s,
    match body s with
    | (Raises (CommandExecutionError exc), s') => handler exc s'
    | r => r
    end.

(** How a [try] statement whose handler ends in [return] is left: through
    that [return], or by falling out of the body with the value it bound. *)
Inductive attempt (R A : Type) : Type :=
| Leave (ret : R)
| Proceed (a : A).
Arguments Leave {R A}.
Arguments Proceed {R A}.

(** [d[k]] *)
Definition getitem {World} (d : gmap string Py.value) (k : string) : M World Py.value :=
  match d !! k with
  | Some v => mret v
  | None => raise (KeyError k)
  end.

Definition logged {World} (c : call) (s : state World) (w : World) : state World :=
  {| world := w; calls := calls s ++ [c] |}.

Section Calls.
Context {World : Type} (salt : Salt World).

(** [__salt__['sysctl.get'](name)] *)
Definition salt_sysctl_get (name : string) : M World string :=
  λ s, (Returns (sysctl_get salt name (world s)), logged (CallGet name) s (world s)).

(** [__salt__['sysctl.show'](config_file=config)] *)
Definition salt_sysctl_show (config : string) : M World (gmap string Py.value) :=
  λ s, (Returns (sysctl_show salt config (world s)), logged (CallShow config) s (world s)).

(** [__salt__['sysctl.default_config']()], for a loader that has it. *)
Definition salt_sysctl_default_config (f : World → string) : M World string :=
  λ s, (Returns (f (world s)), logged CallDefaultConfig s (world s)).

(** [__salt__['sysctl.persist'](name, value, config)] *)
Definition salt_sysctl_persist (name : string) (value : Py.value) (config : string)
  : M World string :=
  λ s,
    match sysctl_persist salt name value config (world s) with
    | (PersistReturns update, w) =>
        (Returns update, logged (CallPersist name value config) s w)
    | (PersistRaises msg, w) =>
        (Raises (CommandExecutionError msg), logged (CallPersist name value config) s w)
    end.
End Calls.

(** ** The state function *)

Section Present.
Context {World : Type}.
(** [__salt__] and [__opts__['test']]. *)
Context (salt : Salt World) (opts_test : bool).

Definition present (name : string) (value : Py.value) (config : option string)
  : M World Ret.t :=
  let ret := {| Ret.name := name;
                Ret.result := Some true;
                Ret.changes := ∅;
                Ret.comment := "" |} in
  (* [sysctl.get] hands back a string, on which [str] is the identity *)
  current ← salt_sysctl_get salt name;
  config ←
    match config with
    | None =>
        match sysctl_default_config salt with
        | Some f => salt_sysctl_default_config f
        | None => mret "/etc/sysctl.conf"
        end
    | Some config => mret config
    end;
  if Py.contains "unknown oid" current then
    let ret := Ret.set_result (Some false) ret in
    let ret := Ret.set_comment "This sysctl parameter is unknown to the system" ret in
    mret ret
  else if opts_test then
    configured ← salt_sysctl_show salt config;
    let memory_value_correct := Py.split_eq current (Py.str value) in
    configured_name ← getitem configured name;
    let config_value_correct := Py.split_eq (Py.str configured_name) (Py.str value) in
    if memory_value_correct && config_value_correct then
      let ret := Ret.set_result (Some true) ret in
      let ret := Ret.set_comment
                   ("Sysctl value " ++ name ++ " = " ++ Py.str value ++ " is already set") ret in
      mret ret
    else if memory_value_correct && negb config_value_correct then
      let ret := Ret.set_result None ret in
      old ← getitem configured name;
      let ret := Ret.set_changes {[ "old" := old; "new" := value ]} ret in
      let ret := Ret.set_comment
                   ("Sysctl value is currently set on the running system but not "
                    ++ "correct in config file. Will adjust config file accordingly.") ret in
      mret ret
    else if negb memory_value_correct && config_value_correct then
      let ret := Ret.set_result None ret in
      let ret := Ret.set_changes
                   {[ "old" := Py.PStr current; "new" := Py.PStr (Py.str value) ]} ret in
      let ret := Ret.set_comment
                   ("Current running sysctl configuration is different from config. "
                    ++ "Will adjust running sysctl value.") ret in
      mret ret
    else
      let ret := Ret.set_result None ret in
      let ret := Ret.set_changes {[ "new" := value ]} ret in
      let ret := Ret.set_comment "Sysctl option set to be changed." ret in
      mret ret
  else
    attempt ←
      try_except
        (update ← salt_sysctl_persist salt name value config;
         mret (Proceed update))
        (λ exc,
           let ret := Ret.set_result (Some false) ret in
           let ret := Ret.set_comment
                        ("Failed to set " ++ name ++ " to " ++ Py.str value ++ ": " ++ exc) ret in
           mret (Leave ret));
    match attempt with
    | Leave ret => mret ret
    | Proceed update =>
        if String.eqb update "Updated" then
          let ret := Ret.set_changes {[ name := value ]} ret in
          let ret := Ret.set_comment
                       ("Updated sysctl value " ++ name ++ " = " ++ Py.str value) ret in
          mret ret
        else if String.eqb update "Already set" then
          let ret := Ret.set_comment
                       ("Sysctl value " ++ name ++ " = " ++ Py.str value ++ " is already set") ret in
          mret ret
        else mret ret
    end.
End Present.

(** A call of [present] on a minion in state [w], with an empty call log. *)
Definition run {World A} (m : M World A) (w : World) : outcome A * state World :=
  m {| world := w; calls := [] |}.

(** ** Derived notions used in the statements *)

(** The configuration file [present] works on once lines 54-60 have run. *)
Definition resolved_config {World} (salt : Salt World) (config : option string) (w : World)
  : string :=
  match config with
  | Some c => c
  | None =>
      match sysctl_default_config salt with
      | Some f => f w
      | None => "/etc/sysctl.conf"
      end
  end.

(** The loader calls that lines 54-60 make. *)
Definition resolve_calls {World} (salt : Salt World) (config : option string) : list call :=
  match config, sysctl_default_config salt with
  | None, Some _ => [CallDefaultConfig]
  | _, _ => []
  end.

Definition is_persist (c : call) : bool :=
  match c with CallPersist _ _ _ => true | _ => false end.

Definition is_show (c : call) : bool :=
  match c with CallShow _ => true | _ => false end.

(** [n] calls of [present] in a row with the same arguments, collecting
    what each returns. *)
Fixpoint present_times {World} (salt : Salt World) (opts_test : bool)
    (n : nat) (name : string) (value : Py.value) (config : option string)
  : M World (list Ret.t) :=
  match n with
  | O => mret []
  | S n' =>
      r ← present salt opts_test name value config;
      rs ← present_times salt opts_test n' name value config;
      mret (r :: rs)
  end.

(** A string that is one token: not empty and free of white space. *)
Definition single_token (s : string) : bool :=
  match s with
  | EmptyString => false
  | String _ _ => forallb (λ c, negb (Py.isspace c)) (list_ascii_of_string s)
  end.

(** ** A sample minion

    A loader over a minion whose state is the table of running kernel
    values and the contents of its configuration files. It is used to run
    [present] on concrete inputs. *)
Module Minion.

Record World : Type := {
  kernel : gmap string string;
  files : gmap string (gmap string Py.value);
  writable : bool
}.

Definition get (name : string) (w : World) : string :=
  match kernel w !! name with
  | Some v => v
  | None => "sysctl: unknown oid '" ++ name ++ "'"
  end.

(** A file that does not exist reads as the empty mapping. *)
Definition show (config : string) (w : World) : gmap string Py.value :=
  default ∅ (files w !! config).

Definition default_config (w : World) : string := "/etc/sysctl.d/99-salt.conf".

Definition persist (name : string) (value : Py.value) (config : string) (w : World)
  : persist_outcome * World :=
  match kernel w !! name with
  | None => (PersistRaises ("sysctl " ++ name ++ " does not exist"), w)
  | Some v =>
      if Py.split_eq v (Py.str value)
         && bool_decide (show config w !! name = Some (Py.PStr (Py.str value)))
      then (PersistReturns "Already set", w)
      else if writable w then
        (PersistReturns "Updated",
         {| kernel := <[name := Py.str value]> (kernel w);
            files := <[config := <[name := Py.PStr (Py.str value)]> (show config w)]>
                       (files w);
            writable := true |})
      else (PersistRaises ("Could not write to file " ++ config), w)
  end.

Definition salt : Salt World :=
  {| sysctl_get := get;
     sysctl_show := show;
     sysctl_default_config := Some default_config;
     sysctl_persist := persist |}.

(** The same loader on a platform without [sysctl.default_config]. *)
Definition salt_plain : Salt World :=
  {| sysctl_get := get;
     sysctl_show := show;
     sysctl_default_config := None;
     sysctl_persist := persist |}.

(** A minion with swappiness 60 and one entry in [/etc/sysctl.conf]. *)
Definition fresh : World :=
  {| kernel := {[ "vm.swappiness" := "60"; "net.ipv4.tcp_rmem" := "4096  87380 6291456" ]};
     files := {[ "/etc/sysctl.conf" := {[ "vm.swappiness" := Py.PStr "60" ]} ]};
     writable := true |}.

(** A minion on which the kernel holds [running] for [name] and the
    default configuration file holds [persisted]. *)
Definition holding (name running persisted : string) : World :=
  {| kernel := {[ name := running ]};
     files := {[ "/etc/sysctl.d/99-salt.conf" := {[ name := Py.PStr persisted ]} ]};
     writable := true |}.

(** The minion [w] with its file system mounted read-only. *)
Definition read_only (w : World) : World :=
  {| kernel := kernel w; files := files w; writable := false |}.

End Minion.

(** ** Sample runs *)

Example str_int : Py.str (Py.PInt 20) = "20".
Proof. reflexivity. Qed.

Example split_runs : Py.split "10  20" = ["10"; "20"].
Proof. reflexivity. Qed.

Example split_tabs : Py.split ("  4096" ++ String (Ascii.ascii_of_nat 9) "87380 " ++ " 6291456 ")
                     = ["4096"; "87380"; "6291456"].
Proof. reflexivity. Qed.

Example contains_unknown :
  Py.contains "unknown oid" "sysctl: unknown oid 'vm.foo'" = true.
Proof. reflexivity. Qed.

Example fresh_test_swappiness :
  (run (present Minion.salt true "vm.swappiness" (Py.PInt 60) (Some "/etc/sysctl.conf"))
       Minion.fresh).1
  = Returns {| Ret.name := "vm.swappiness"; Ret.result := Some true; Ret.changes := ∅;
               Ret.comment := "Sysctl value vm.swappiness = 60 is already set" |}.
Proof. vm_compute. reflexivity. Qed.

Example swappiness_10_20 :
  (run (present Minion.salt true "vm.swappiness" (Py.PInt 20) None)
       (Minion.holding "vm.swappiness" "10" "20")).1
  = Returns {| Ret.name := "vm.swappiness"; Ret.result := None;
               Ret.changes := {[ "old" := Py.PStr "10"; "new" := Py.PStr "20" ]};
               Ret.comment := "Current running sysctl configuration is different from config. Will adjust running sysctl value." |}.
Proof. vm_compute. reflexivity. Qed.

(** ** String lemmas *)

Lemma startswith_app (p s : string) : Py.startswith p (p ++ s) = true.
Proof.
  induction p as [|a p IH]; simpl; [reflexivity|].
  rewrite Ascii.eqb_refl. exact IH.
Qed.

Lemma contains_app_r (sub a s : string) :
  Py.contains sub s = true → Py.contains sub (a ++ s) = true.
Proof.
  intros H. induction a as [|c a IH]; simpl; [exact H|].
  rewrite IH. apply orb_true_r.
Qed.

Lemma contains_startswith (sub s : string) :
  Py.startswith sub s = true → Py.contains sub s = true.
Proof. intros H. destruct s; simpl; rewrite H; reflexivity. Qed.

Lemma contains_here (sub s : string) : Py.contains sub (sub ++ s) = true.
Proof. apply contains_startswith, startswith_app. Qed.

Lemma contains_self (s : string) : Py.contains s s = true.
Proof.
  apply contains_startswith. induction s as [|c s IH]; simpl; [reflexivity|].
  rewrite Ascii.eqb_refl. exact IH.
Qed.

Lemma contains_middle (sub a b : string) : Py.contains sub (a ++ sub ++ b) = true.
Proof. apply contains_app_r, contains_here. Qed.

Lemma split_eq_true (a b : string) : Py.split_eq a b = true ↔ Py.split a = Py.split b.
Proof. unfold Py.split_eq. apply bool_decide_eq_true. Qed.

Lemma split_eq_false (a b : string) : Py.split_eq a b = false ↔ Py.split a ≠ Py.split b.
Proof. unfold Py.split_eq. apply bool_decide_eq_false. Qed.

(** ** How [present] runs, path by path *)

Section Paths.
Context {World : Type} (salt : Salt World).
Implicit Types (name : string) (value : Py.value) (config : option string) (w : World).

Ltac step_present :=
  unfold run, present, salt_sysctl_get, salt_sysctl_show, salt_sysctl_default_config,
    salt_sysctl_persist, try_except, getitem, raise, resolved_config, resolve_calls, logged;
  unfold mbind, mret, M_bind, M_ret; cbn.

Ltac finish_frame :=
  cbn;
  repeat match goal with
         | |- context [if ?b then _ else _] => destruct b; cbn
         end;
  rewrite <- ?app_assoc; reflexivity.

(** Lines 62-68. *)
Lemma run_present_unknown opts_test name value config w :
  Py.contains "unknown oid" (sysctl_get salt name w) = true →
  run (present salt opts_test name value config) w
  = (Returns {| Ret.name := name; Ret.result := Some false; Ret.changes := ∅;
                Ret.comment := "This sysctl parameter is unknown to the system" |},
     {| world := w; calls := CallGet name :: resolve_calls salt config |}).
Proof.
  intros Hunknown. step_present.
  destruct config as [c|]; [|destruct (sysctl_default_config salt) as [f|]];
    cbn; rewrite Hunknown; reflexivity.
Qed.

(** Lines 70-76 when [configured] has no entry for [name]. *)
Lemma run_present_test_missing name value config w :
  Py.contains "unknown oid" (sysctl_get salt name w) = false →
  sysctl_show salt (resolved_config salt config w) w !! name = None →
  run (present salt true name value config) w
  = (Raises (KeyError name),
     {| world := w;
        calls := CallGet name :: resolve_calls salt config
                 ++ [CallShow (resolved_config salt config w)] |}).
Proof.
  intros Hknown Hmissing. revert Hmissing. step_present.
  destruct config as [c|]; [|destruct (sysctl_default_config salt) as [f|]];
    cbn; rewrite Hknown; cbn; intros ->; reflexivity.
Qed.

(** Lines 70-103 when [configured] has an entry for [name]. *)
Lemma run_present_test_found name value config w persisted :
  Py.contains "unknown oid" (sysctl_get salt name w) = false →
  sysctl_show salt (resolved_config salt config w) w !! name = Some persisted →
  run (present salt true name value config) w
  = (Returns
       (if Py.split_eq (sysctl_get salt name w) (Py.str value) then
          if Py.split_eq (Py.str persisted) (Py.str value) then
            {| Ret.name := name; Ret.result := Some true; Ret.changes := ∅;
               Ret.comment :=
                 "Sysctl value " ++ name ++ " = " ++ Py.str value ++ " is already set" |}
          else
            {| Ret.name := name; Ret.result := None;
               Ret.changes := {[ "old" := persisted; "new" := value ]};
               Ret.comment :=
                 "Sysctl value is currently set on the running system but not "
                 ++ "correct in config file. Will adjust config file accordingly." |}
        else
          if Py.split_eq (Py.str persisted) (Py.str value) then
            {| Ret.name := name; Ret.result := None;
               Ret.changes := {[ "old" := Py.PStr (sysctl_get salt name w);
                                 "new" := Py.PStr (Py.str value) ]};
               Ret.comment :=
                 "Current running sysctl configuration is different from config. "
                 ++ "Will adjust running sysctl value." |}
          else
            {| Ret.name := name; Ret.result := None;
               Ret.changes := {[ "new" := value ]};
               Ret.comment := "Sysctl option set to be changed." |}),
     {| world := w;
        calls := CallGet name :: resolve_calls salt config
                 ++ [CallShow (resolved_config salt config w)] |}).
Proof.
  intros Hknown Hfound. revert Hfound. step_present.
  destruct config as [c|]; [|destruct (sysctl_default_config salt) as [f|]];
    cbn; rewrite Hknown; cbn; intros ->; cbn;
    destruct (Py.split_eq (sysctl_get salt name w) (Py.str value));
    destruct (Py.split_eq (Py.str persisted) (Py.str value)); reflexivity.
Qed.

(** Lines 105-123 when [sysctl.persist] returns. *)
Lemma run_present_apply_returns name value config w update w' :
  Py.contains "unknown oid" (sysctl_get salt name w) = false →
  sysctl_persist salt name value (resolved_config salt config w) w
  = (PersistReturns update, w') →
  run (present salt false name value config) w
  = (Returns
       (if String.eqb update "Updated" then
          {| Ret.name := name; Ret.result := Some true;
             Ret.changes := {[ name := value ]};
             Ret.comment := "Updated sysctl value " ++ name ++ " = " ++ Py.str value |}
        else if String.eqb update "Already set" then
          {| Ret.name := name; Ret.result := Some true; Ret.changes := ∅;
             Ret.comment :=
               "Sysctl value " ++ name ++ " = " ++ Py.str value ++ " is already set" |}
        else
          {| Ret.name := name; Ret.result := Some true; Ret.changes := ∅;
             Ret.comment := "" |}),
     {| world := w';
        calls := CallGet name :: resolve_calls salt config
                 ++ [CallPersist name value (resolved_config salt config w)] |}).
Proof.
  intros Hknown Hpersist. revert Hpersist. step_present.
  destruct config as [c|]; [|destruct (sysctl_default_config salt) as [f|]];
    cbn; rewrite Hknown; cbn; intros ->; cbn;
    destruct (String.eqb update "Updated");
    destruct (String.eqb update "Already set"); reflexivity.
Qed.

(** Lines 105-112 when [sysctl.persist] raises. *)
Lemma run_present_apply_raises name value config w exc w' :
  Py.contains "unknown oid" (sysctl_get salt name w) = false →
  sysctl_persist salt name value (resolved_config salt config w) w
  = (PersistRaises exc, w') →
  run (present salt false name value config) w
  = (Returns
       {| Ret.name := name; Ret.result := Some false; Ret.changes := ∅;
          Ret.comment :=
            "Failed to set " ++ name ++ " to " ++ Py.str value ++ ": " ++ exc |},
     {| world := w';
        calls := CallGet name :: resolve_calls salt config
                 ++ [CallPersist name value (resolved_config salt config w)] |}).
Proof.
  intros Hknown Hpersist. revert Hpersist. step_present.
  destruct config as [c|]; [|destruct (sysctl_default_config salt) as [f|]];
    cbn; rewrite Hknown; cbn; intros ->; reflexivity.
Qed.

(** A call on a state that already has a log behaves as on an empty log,
    with the new calls added after the old ones. *)
Lemma present_log_frame opts_test name value config w log :
  present salt opts_test name value config {| world := w; calls := log |}
  = let r := run (present salt opts_test name value config) w in
    (r.1, {| world := world r.2; calls := log ++ calls r.2 |}).
Proof.
  step_present.
  destruct config as [c|]; [|destruct (sysctl_default_config salt) as [f|]];
    cbn; (destruct (Py.contains "unknown oid" (sysctl_get salt name w));
          [finish_frame|]);
    (destruct opts_test; cbn;
     [ match goal with
       | |- context [@lookup _ _ _ _ name ?m] => destruct (@lookup _ _ _ _ name m)
       end
     | match goal with
       | |- context [sysctl_persist salt name value ?c w] =>
           destruct (sysctl_persist salt name value c w) as [[exc|update] w']
       end ]);
    finish_frame.
Qed.
End Paths.

(** ** Dry run *)

(** C1, as the code has it. With [test] set, a parameter the system knows
    and a mapping from [sysctl.show] that has an entry for [name],
    [present] returns one of four outcomes, chosen by whether the running
    value and the configured value for [name] split on white space into
    the same tokens as the wanted value: both do, [result] is [True] and
    [changes] is empty; only the running value does, [result] is [None]
    and [changes] holds the configured value as [old] and the wanted value
    as [new]; only the configured value does, [result] is [None] and
    [changes] holds the string form of the running value as [old] and the
    string form of the wanted value as [new], as line 92 stores them;
    neither does, [result] is [None] and [changes] holds the wanted value
    as [new] and has no [old]. The comparisons are on token lists, so
    strings that differ only in white space count as equal. *)
Theorem present_test_classification {World} (salt : Salt World)
    (name : string) (value : Py.value) (config : option string) (w : World)
    (persisted : Py.value) :
  Py.contains "unknown oid" (sysctl_get salt name w) = false →
  sysctl_show salt (resolved_config salt config w) w !! name = Some persisted →
  ∃ ret,
    (run (present salt true name value config) w).1 = Returns ret ∧
    (Py.split (sysctl_get salt name w) = Py.split (Py.str value) →
     Py.split (Py.str persisted) = Py.split (Py.str value) →
     Ret.result ret = Some true ∧ Ret.changes ret = ∅) ∧
    (Py.split (sysctl_get salt name w) = Py.split (Py.str value) →
     Py.split (Py.str persisted) ≠ Py.split (Py.str value) →
     Ret.result ret = None ∧
     Ret.changes ret = {[ "old" := persisted; "new" := value ]}) ∧
    (Py.split (sysctl_get salt name w) ≠ Py.split (Py.str value) →
     Py.split (Py.str persisted) = Py.split (Py.str value) →
     Ret.result ret = None ∧
     Ret.changes ret = {[ "old" := Py.PStr (sysctl_get salt name w);
                          "new" := Py.PStr (Py.str value) ]}) ∧
    (Py.split (sysctl_get salt name w) ≠ Py.split (Py.str value) →
     Py.split (Py.str persisted) ≠ Py.split (Py.str value) →
     Ret.result ret = None ∧
     Ret.changes ret = {[ "new" := value ]} ∧
     Ret.changes ret !! "old" = None).
Proof.
  intros Hknown Hfound.
  rewrite (run_present_test_found salt name value config w persisted Hknown Hfound).
  eexists; split; [reflexivity|].
  destruct (Py.split_eq (sysctl_get salt name w) (Py.str value)) eqn:Hmem;
    [apply split_eq_true in Hmem | apply split_eq_false in Hmem];
    (destruct (Py.split_eq (Py.str persisted) (Py.str value)) eqn:Hfile;
     [apply split_eq_true in Hfile | apply split_eq_false in Hfile]);
    repeat split; intros; try contradiction; reflexivity.
Qed.

Lemma present_test_classification_witness :
  Py.contains "unknown oid"
    (sysctl_get Minion.salt "net.ipv4.tcp_rmem"
       (Minion.holding "net.ipv4.tcp_rmem" "4096  87380 6291456" "4096 87380  6291456"))
  = false ∧
  ∃ ret,
    (run (present Minion.salt true "net.ipv4.tcp_rmem" (Py.PStr "4096 87380 6291456") None)
         (Minion.holding "net.ipv4.tcp_rmem" "4096  87380 6291456" "4096 87380  6291456")).1
    = Returns ret ∧
    Ret.result ret = Some true ∧ Ret.changes ret = ∅.
Proof.
  split; [reflexivity|].
  destruct (present_test_classification Minion.salt
              "net.ipv4.tcp_rmem" (Py.PStr "4096 87380 6291456") None
              (Minion.holding "net.ipv4.tcp_rmem" "4096  87380 6291456" "4096 87380  6291456")
              (Py.PStr "4096 87380  6291456"))
    as (ret & Hrun & Hboth & _); [reflexivity | reflexivity |].
  exists ret. split; [exact Hrun|]. apply Hboth; reflexivity.
Defined.

(** C1, as stated, fails in two ways. For a parameter the system knows
    whose name is not in the configuration file, none of the four outcomes
    results: line 76 raises [KeyError]. And when only the configured value
    agrees with a wanted value that is not a string (the integer 20),
    [changes] holds under [new] the string "20" of line 92, not the wanted
    value itself. *)
Lemma present_test_classification_fails :
  (Py.contains "unknown oid" (sysctl_get Minion.salt "net.ipv4.tcp_rmem" Minion.fresh)
   = false ∧
   sysctl_show Minion.salt "/etc/sysctl.conf" Minion.fresh
   = {[ "vm.swappiness" := Py.PStr "60" ]} ∧
   (run (present Minion.salt true "net.ipv4.tcp_rmem" (Py.PStr "4096 87380 6291456")
           (Some "/etc/sysctl.conf")) Minion.fresh).1
   = Raises (KeyError "net.ipv4.tcp_rmem")) ∧
  (Py.contains "unknown oid"
     (sysctl_get Minion.salt "vm.swappiness" (Minion.holding "vm.swappiness" "10" "20"))
   = false ∧
   Py.split (sysctl_get Minion.salt "vm.swappiness"
               (Minion.holding "vm.swappiness" "10" "20"))
   ≠ Py.split (Py.str (Py.PInt 20)) ∧
   Py.split (Py.str (Py.PStr "20")) = Py.split (Py.str (Py.PInt 20)) ∧
   (run (present Minion.salt true "vm.swappiness" (Py.PInt 20) None)
        (Minion.holding "vm.swappiness" "10" "20")).1
   = Returns {| Ret.name := "vm.swappiness"; Ret.result := None;
                Ret.changes := {[ "old" := Py.PStr "10"; "new" := Py.PStr "20" ]};
                Ret.comment := "Current running sysctl configuration is different from config. Will adjust running sysctl value." |} ∧
   ({[ "old" := Py.PStr "10"; "new" := Py.PStr "20" ]} : gmap string Py.value)
   ≠ {[ "old" := Py.PStr "10"; "new" := Py.PInt 20 ]}).
Proof.
  split.
  - repeat split.
  - split; [reflexivity|]. split; [discriminate|]. split; [reflexivity|].
    split; [reflexivity|].
    intros Heq. apply (f_equal (λ m : gmap string Py.value, m !! "new")) in Heq.
    vm_compute in Heq. discriminate Heq.
Qed.


(** ** Unknown parameters *)

(** C2. When [sysctl.get] answers with a string that contains "unknown oid",
    [present] returns [result] [False], empty [changes] and the comment
    "This sysctl parameter is unknown to the system", with [test] set or
    not, and calls neither [sysctl.show] nor [sysctl.persist]. *)
Theorem present_unknown_oid_fails {World} (salt : Salt World) (opts_test : bool)
    (name : string) (value : Py.value) (config : option string) (w : World) :
  Py.contains "unknown oid" (sysctl_get salt name w) = true →
  (run (present salt opts_test name value config) w).1
  = Returns {| Ret.name := name; Ret.result := Some false; Ret.changes := ∅;
               Ret.comment := "This sysctl parameter is unknown to the system" |} ∧
  Forall (λ c, is_show c = false ∧ is_persist c = false)
    (calls (run (present salt opts_test name value config) w).2).
Proof.
  intros Hunknown.
  rewrite (run_present_unknown salt opts_test name value config w Hunknown). cbn.
  split; [reflexivity|].
  constructor; [auto|].
  unfold resolve_calls. destruct config, (sysctl_default_config salt);
    repeat constructor.
Qed.

Lemma present_unknown_oid_fails_witness :
  Py.contains "unknown oid" (sysctl_get Minion.salt "vm.swapiness" Minion.fresh) = true ∧
  (run (present Minion.salt false "vm.swapiness" (Py.PInt 20) None) Minion.fresh).1
  = Returns {| Ret.name := "vm.swapiness"; Ret.result := Some false; Ret.changes := ∅;
               Ret.comment := "This sysctl parameter is unknown to the system" |} ∧
  Forall (λ c, is_show c = false ∧ is_persist c = false)
    (calls (run (present Minion.salt false "vm.swapiness" (Py.PInt 20) None) Minion.fresh).2).
Proof.
  split; [reflexivity|].
  apply (present_unknown_oid_fails Minion.salt false "vm.swapiness" (Py.PInt 20) None
           Minion.fresh).
  reflexivity.
Defined.

(** C7, as the code has it. The configuration file is resolved (lines
    54-60) before the "unknown oid" test (line 62): when [sysctl.get]
    signals an unknown parameter the failure is returned after
    [sysctl.default_config] has been called once if no [config] was given
    and the loader has that function, and without it being called
    otherwise; no other call follows [sysctl.get]. *)
Theorem present_unknown_after_config_resolution {World} (salt : Salt World)
    (opts_test : bool) (name : string) (value : Py.value) (config : option string)
    (w : World) :
  Py.contains "unknown oid" (sysctl_get salt name w) = true →
  (run (present salt opts_test name value config) w).1
  = Returns {| Ret.name := name; Ret.result := Some false; Ret.changes := ∅;
               Ret.comment := "This sysctl parameter is unknown to the system" |} ∧
  calls (run (present salt opts_test name value config) w).2
  = CallGet name ::
      match config, sysctl_default_config salt with
      | None, Some _ => [CallDefaultConfig]
      | _, _ => []
      end.
Proof.
  intros Hunknown.
  rewrite (run_present_unknown salt opts_test name value config w Hunknown).
  split; reflexivity.
Qed.

Lemma present_unknown_after_config_resolution_witness :
  Py.contains "unknown oid" (sysctl_get Minion.salt_plain "vm.swapiness" Minion.fresh) = true ∧
  calls (run (present Minion.salt_plain true "vm.swapiness" (Py.PInt 20) None)
             Minion.fresh).2
  = [CallGet "vm.swapiness"].
Proof.
  split; [reflexivity|].
  apply (present_unknown_after_config_resolution Minion.salt_plain true
           "vm.swapiness" (Py.PInt 20) None Minion.fresh).
  reflexivity.
Defined.

(** C7, as stated, fails: on a loader that has [sysctl.default_config], a
    call without [config] for a parameter the system does not know
    consults [sysctl.default_config] before it returns the failure. *)
Lemma present_unknown_consults_default_config :
  Py.contains "unknown oid" (sysctl_get Minion.salt "vm.swapiness" Minion.fresh) = true ∧
  (run (present Minion.salt false "vm.swapiness" (Py.PInt 20) None) Minion.fresh).1
  = Returns {| Ret.name := "vm.swapiness"; Ret.result := Some false; Ret.changes := ∅;
               Ret.comment := "This sysctl parameter is unknown to the system" |} ∧
  calls (run (present Minion.salt false "vm.swapiness" (Py.PInt 20) None) Minion.fresh).2
  = [CallGet "vm.swapiness"; CallDefaultConfig] ∧
  ¬ Forall (λ c, c ≠ CallDefaultConfig)
      (calls (run (present Minion.salt false "vm.swapiness" (Py.PInt 20) None)
                  Minion.fresh).2).
Proof.
  repeat split; try reflexivity.
  intros Hnone. apply Forall_cons_1 in Hnone as [_ Hnone].
  apply Forall_cons_1 in Hnone as [Hne _]. apply Hne. reflexivity.
Qed.

(** ** Applying *)

(** C4. With [test] unset and a parameter the system knows, what
    [sysctl.persist] returns decides the outcome: "Updated" gives [result]
    [True], [changes] [{name: value}] and the comment "Updated sysctl value
    name = value"; "Already set" gives [result] [True], empty [changes] and
    the comment "Sysctl value name = value is already set"; any other
    string gives [result] [True], empty [changes] and an empty comment. *)
Theorem present_apply_status {World} (salt : Salt World)
    (name : string) (value : Py.value) (config : option string) (w w' : World)
    (update : string) :
  Py.contains "unknown oid" (sysctl_get salt name w) = false →
  sysctl_persist salt name value (resolved_config salt config w) w
  = (PersistReturns update, w') →
  (update = "Updated" →
   (run (present salt false name value config) w).1
   = Returns {| Ret.name := name; Ret.result := Some true;
                Ret.changes := {[ name := value ]};
                Ret.comment := "Updated sysctl value " ++ name ++ " = " ++ Py.str value |}) ∧
  (update = "Already set" →
   (run (present salt false name value config) w).1
   = Returns {| Ret.name := name; Ret.result := Some true; Ret.changes := ∅;
                Ret.comment :=
                  "Sysctl value " ++ name ++ " = " ++ Py.str value ++ " is already set" |}) ∧
  (update ≠ "Updated" → update ≠ "Already set" →
   (run (present salt false name value config) w).1
   = Returns {| Ret.name := name; Ret.result := Some true; Ret.changes := ∅;
                Ret.comment := "" |}).
Proof.
  intros Hknown Hpersist.
  rewrite (run_present_apply_returns salt name value config w update w' Hknown Hpersist).
  cbn [fst]. repeat split.
  - intros ->. reflexivity.
  - intros ->. reflexivity.
  - intros Hupdated Halready.
    apply String.eqb_neq in Hupdated, Halready. rewrite Hupdated, Halready.
    reflexivity.
Qed.

Lemma present_apply_status_witness :
  (run (present Minion.salt false "vm.swappiness" (Py.PInt 20) (Some "/etc/sysctl.conf"))
       Minion.fresh).1
  = Returns {| Ret.name := "vm.swappiness"; Ret.result := Some true;
               Ret.changes := {[ "vm.swappiness" := Py.PInt 20 ]};
               Ret.comment := "Updated sysctl value vm.swappiness = 20" |}.
Proof.
  refine (proj1 (present_apply_status Minion.salt "vm.swappiness" (Py.PInt 20)
                   (Some "/etc/sysctl.conf") Minion.fresh
                   (Minion.persist "vm.swappiness" (Py.PInt 20) "/etc/sysctl.conf"
                      Minion.fresh).2
                   "Updated" _ _) _); reflexivity.
Defined.

(** C5. With [test] unset and a parameter the system knows, a
    [CommandExecutionError] raised by [sysctl.persist] is caught: [present]
    returns [result] [False], empty [changes] and the comment "Failed to
    set name to value: error", which contains the name, the value and the
    text of the error. *)
Theorem present_apply_failure {World} (salt : Salt World)
    (name : string) (value : Py.value) (config : option string) (w w' : World)
    (exc : string) :
  Py.contains "unknown oid" (sysctl_get salt name w) = false →
  sysctl_persist salt name value (resolved_config salt config w) w
  = (PersistRaises exc, w') →
  ∃ ret,
    (run (present salt false name value config) w).1 = Returns ret ∧
    Ret.result ret = Some false ∧
    Ret.changes ret = ∅ ∧
    Ret.comment ret = "Failed to set " ++ name ++ " to " ++ Py.str value ++ ": " ++ exc ∧
    Py.contains name (Ret.comment ret) = true ∧
    Py.contains (Py.str value) (Ret.comment ret) = true ∧
    Py.contains exc (Ret.comment ret) = true.
Proof.
  intros Hknown Hpersist.
  rewrite (run_present_apply_raises salt name value config w exc w' Hknown Hpersist).
  eexists. split; [reflexivity|]. cbn [Ret.result Ret.changes Ret.comment].
  repeat split.
  - apply contains_middle.
  - apply contains_app_r, contains_app_r, contains_middle.
  - do 5 apply contains_app_r. apply contains_self.
Qed.

Lemma present_apply_failure_witness :
  Py.contains "unknown oid"
    (sysctl_get Minion.salt "vm.swappiness" (Minion.read_only Minion.fresh)) = false ∧
  ∃ ret,
    (run (present Minion.salt false "vm.swappiness" (Py.PInt 20) (Some "/etc/sysctl.conf"))
         (Minion.read_only Minion.fresh)).1 = Returns ret ∧
    Ret.result ret = Some false ∧
    Ret.changes ret = ∅ ∧
    Ret.comment ret
    = "Failed to set vm.swappiness to 20: Could not write to file /etc/sysctl.conf".
Proof.
  split; [reflexivity|].
  destruct (present_apply_failure Minion.salt "vm.swappiness" (Py.PInt 20)
              (Some "/etc/sysctl.conf")
              (Minion.read_only Minion.fresh) (Minion.read_only Minion.fresh)
              "Could not write to file /etc/sysctl.conf")
    as (ret & Hrun & Hresult & Hchanges & Hcomment & _); [reflexivity | reflexivity |].
  exists ret. repeat split; assumption.
Defined.

(** ** A configuration without the parameter *)

(** C6, at an input where it fails. The parameter is known to the kernel
    and the configuration file named by [config] does not exist, so that
    [sysctl.show] gives the empty mapping; with [test] set, line 76
    subscripts that mapping with [name] and [present] ends with [KeyError]
    instead of returning. *)
Theorem present_test_missing_entry_raises :
  Py.contains "unknown oid" (sysctl_get Minion.salt "vm.swappiness" Minion.fresh) = false ∧
  sysctl_show Minion.salt "/etc/sysctl.d/50-tuning.conf" Minion.fresh = ∅ ∧
  run (present Minion.salt true "vm.swappiness" (Py.PInt 20)
         (Some "/etc/sysctl.d/50-tuning.conf")) Minion.fresh
  = (Raises (KeyError "vm.swappiness"),
     {| world := Minion.fresh;
        calls := [CallGet "vm.swappiness"; CallShow "/etc/sysctl.d/50-tuning.conf"] |}).
Proof. repeat split. Qed.

(** ** The return value *)

(** C10. Whatever [present] returns carries under [name] the [name] it was
    called with: the dictionary is built with it on lines 47-50 and no
    later assignment touches that key. *)
Theorem present_ret_name {World} (salt : Salt World) (opts_test : bool)
    (name : string) (value : Py.value) (config : option string) (w : World)
    (ret : Ret.t) (s' : state World) :
  run (present salt opts_test name value config) w = (Returns ret, s') →
  Ret.name ret = name.
Proof.
  destruct (Py.contains "unknown oid" (sysctl_get salt name w)) eqn:Hknown.
  { rewrite (run_present_unknown salt opts_test name value config w Hknown).
    intros [= <- _]. reflexivity. }
  destruct opts_test.
  - destruct (sysctl_show salt (resolved_config salt config w) w !! name)
      as [persisted|] eqn:Hshow.
    + rewrite (run_present_test_found salt name value config w persisted Hknown Hshow).
      intros [= <- _].
      destruct (Py.split_eq (sysctl_get salt name w) (Py.str value)),
        (Py.split_eq (Py.str persisted) (Py.str value)); reflexivity.
    + rewrite (run_present_test_missing salt name value config w Hknown Hshow).
      discriminate.
  - destruct (sysctl_persist salt name value (resolved_config salt config w) w)
      as [[exc|update] w'] eqn:Hpersist.
    + rewrite (run_present_apply_raises salt name value config w exc w' Hknown Hpersist).
      intros [= <- _]. reflexivity.
    + rewrite (run_present_apply_returns salt name value config w update w' Hknown Hpersist).
      intros [= <- _].
      destruct (String.eqb update "Updated"), (String.eqb update "Already set");
        reflexivity.
Qed.

Lemma present_ret_name_witness :
  Ret.name
    {| Ret.name := "vm.swappiness"; Ret.result := None;
       Ret.changes := {[ "new" := Py.PInt 20 ]};
       Ret.comment := "Sysctl option set to be changed." |}
  = "vm.swappiness".
Proof.
  apply (present_ret_name Minion.salt true "vm.swappiness" (Py.PInt 20)
           (Some "/etc/sysctl.conf") Minion.fresh _
           (run (present Minion.salt true "vm.swappiness" (Py.PInt 20)
                   (Some "/etc/sysctl.conf")) Minion.fresh).2).
  reflexivity.
Defined.

(** C8. On every path on which [present] returns, [changes] is non-empty
    exactly when the parameter is known to the system and either [test] is
    set and the running value or the configured value differs, token by
    token, from the wanted value, or [test] is unset and [sysctl.persist]
    returned "Updated". It is therefore empty when both values are already
    right, when the parameter is unknown, when [sysctl.persist] raises and
    when it returns any other string. *)
Theorem present_changes_nonempty_iff {World} (salt : Salt World) (opts_test : bool)
    (name : string) (value : Py.value) (config : option string) (w : World)
    (ret : Ret.t) (s' : state World) :
  run (present salt opts_test name value config) w = (Returns ret, s') →
  Ret.changes ret ≠ ∅ ↔
    Py.contains "unknown oid" (sysctl_get salt name w) = false ∧
    ((opts_test = true ∧
      ∃ persisted,
        sysctl_show salt (resolved_config salt config w) w !! name = Some persisted ∧
        ¬ (Py.split (sysctl_get salt name w) = Py.split (Py.str value) ∧
           Py.split (Py.str persisted) = Py.split (Py.str value)))
     ∨
     (opts_test = false ∧
      ∃ w', sysctl_persist salt name value (resolved_config salt config w) w
            = (PersistReturns "Updated", w'))).
Proof.
  destruct (Py.contains "unknown oid" (sysctl_get salt name w)) eqn:Hknown.
  { rewrite (run_present_unknown salt opts_test name value config w Hknown).
    intros [= <- _]. cbn. split; [congruence | intros [? _]; discriminate]. }
  destruct opts_test.
  - destruct (sysctl_show salt (resolved_config salt config w) w !! name)
      as [persisted|] eqn:Hshow.
    2:{ rewrite (run_present_test_missing salt name value config w Hknown Hshow).
        discriminate. }
    rewrite (run_present_test_found salt name value config w persisted Hknown Hshow).
    intros [= <- _].
    destruct (Py.split_eq (sysctl_get salt name w) (Py.str value)) eqn:Hmem;
      [apply split_eq_true in Hmem | apply split_eq_false in Hmem];
      (destruct (Py.split_eq (Py.str persisted) (Py.str value)) eqn:Hfile;
       [apply split_eq_true in Hfile | apply split_eq_false in Hfile]);
      cbn [Ret.changes].
    + split; [congruence|].
      intros [_ [[_ (p & [= <-] & Hdiff)] | [[=] _]]]. destruct Hdiff. auto.
    + split; [|intros _; apply insert_non_empty].
      intros _. split; [reflexivity|]. left. split; [reflexivity|].
      exists persisted. split; [reflexivity|]. intros [_ ?]. contradiction.
    + split; [|intros _; apply insert_non_empty].
      intros _. split; [reflexivity|]. left. split; [reflexivity|].
      exists persisted. split; [reflexivity|]. intros [? _]. contradiction.
    + split; [|intros _; apply map_non_empty_singleton].
      intros _. split; [reflexivity|]. left. split; [reflexivity|].
      exists persisted. split; [reflexivity|]. intros [? _]. contradiction.
  - destruct (sysctl_persist salt name value (resolved_config salt config w) w)
      as [[exc|update] w'] eqn:Hpersist.
    + rewrite (run_present_apply_raises salt name value config w exc w' Hknown Hpersist).
      intros [= <- _]. cbn [Ret.changes].
      split; [congruence|]. intros [_ [[[=] _] | [_ [w'' [=]]]]].
    + rewrite (run_present_apply_returns salt name value config w update w' Hknown Hpersist).
      intros [= <- _].
      destruct (String.eqb update "Updated") eqn:Hupdated.
      * apply String.eqb_eq in Hupdated as ->. cbn [Ret.changes].
        split; [|intros _; apply map_non_empty_singleton].
        intros _. split; [reflexivity|]. right. split; [reflexivity|]. eauto.
      * apply String.eqb_neq in Hupdated.
        assert (Hempty : Ret.changes
                  (if String.eqb update "Already set"
                   then {| Ret.name := name; Ret.result := Some true; Ret.changes := ∅;
                           Ret.comment := "Sysctl value " ++ name ++ " = "
                                          ++ Py.str value ++ " is already set" |}
                   else {| Ret.name := name; Ret.result := Some true; Ret.changes := ∅;
                           Ret.comment := "" |}) = ∅)
          by (destruct (String.eqb update "Already set"); reflexivity).
        rewrite Hempty. split; [congruence|].
        intros [_ [[[=] _] | [_ [w'' [= Heq _]]]]]. contradiction.
Qed.

Lemma present_changes_nonempty_iff_witness :
  Ret.changes
    {| Ret.name := "vm.swappiness"; Ret.result := None;
       Ret.changes := {[ "new" := Py.PInt 20 ]};
       Ret.comment := "Sysctl option set to be changed." |} ≠ ∅ ↔
    Py.contains "unknown oid" (sysctl_get Minion.salt "vm.swappiness" Minion.fresh) = false ∧
    ((true = true ∧
      ∃ persisted,
        sysctl_show Minion.salt (resolved_config Minion.salt (Some "/etc/sysctl.conf")
                                   Minion.fresh) Minion.fresh !! "vm.swappiness"
        = Some persisted ∧
        ¬ (Py.split (sysctl_get Minion.salt "vm.swappiness" Minion.fresh)
           = Py.split (Py.str (Py.PInt 20)) ∧
           Py.split (Py.str persisted) = Py.split (Py.str (Py.PInt 20))))
     ∨
     (true = false ∧
      ∃ w', sysctl_persist Minion.salt "vm.swappiness" (Py.PInt 20)
              (resolved_config Minion.salt (Some "/etc/sysctl.conf") Minion.fresh)
              Minion.fresh
            = (PersistReturns "Updated", w'))).
Proof.
  apply (present_changes_nonempty_iff Minion.salt true "vm.swappiness" (Py.PInt 20)
           (Some "/etc/sysctl.conf") Minion.fresh _
           (run (present Minion.salt true "vm.swappiness" (Py.PInt 20)
                   (Some "/etc/sysctl.conf")) Minion.fresh).2).
  reflexivity.
Defined.

(** ** Repeated application *)

Section Repeated.
Context {World : Type} (salt : Salt World).

(** On a minion where [sysctl.persist] answers "Already set" and leaves
    the state as it is, any number of calls in a row give the "already
    set" outcome and leave the state as it is. *)
Lemma present_times_already_set
    (name : string) (value : Py.value) (config : option string) (w : World) :
  Py.contains "unknown oid" (sysctl_get salt name w) = false →
  sysctl_persist salt name value (resolved_config salt config w) w
  = (PersistReturns "Already set", w) →
  ∀ (n : nat) (log : list call),
    ∃ log',
      present_times salt false n name value config {| world := w; calls := log |}
      = (Returns
           (replicate n
              {| Ret.name := name; Ret.result := Some true; Ret.changes := ∅;
                 Ret.comment :=
                   "Sysctl value " ++ name ++ " = " ++ Py.str value ++ " is already set" |}),
         {| world := w; calls := log' |}).
Proof.
  intros Hknown Hpersist n.
  induction n as [|n IH]; intros log.
  - exists log. reflexivity.
  - cbn [present_times replicate]. unfold mbind, M_bind at 1.
    rewrite present_log_frame.
    rewrite (run_present_apply_returns salt name value config w _ w Hknown Hpersist).
    cbn [fst snd world calls String.eqb Ascii.eqb Bool.eqb]. unfold M_bind.
    edestruct IH as [log' Hrest]. rewrite Hrest.
    exists log'. reflexivity.
Qed.
End Repeated.

(** C9. Applying is idempotent for a parameter the system knows. Let a first
    call with [test] unset go through, [sysctl.persist] returning and
    leaving the minion in a state where the same request is answered
    "Already set" without a change. Then every further call with the same
    arguments returns [result] [True], empty [changes] and the "is already
    set" comment, and the minion stays in that state. *)
Theorem present_apply_idempotent {World} (salt : Salt World)
    (name : string) (value : Py.value) (config : option string) (w w1 : World)
    (update : string) (n : nat) :
  Py.contains "unknown oid" (sysctl_get salt name w) = false →
  sysctl_persist salt name value (resolved_config salt config w) w
  = (PersistReturns update, w1) →
  Py.contains "unknown oid" (sysctl_get salt name w1) = false →
  sysctl_persist salt name value (resolved_config salt config w1) w1
  = (PersistReturns "Already set", w1) →
  ∃ first s',
    run (present_times salt false (S n) name value config) w
    = (Returns
         (first ::
          replicate n
            {| Ret.name := name; Ret.result := Some true; Ret.changes := ∅;
               Ret.comment :=
                 "Sysctl value " ++ name ++ " = " ++ Py.str value ++ " is already set" |}),
       s') ∧
    (run (present salt false name value config) w).1 = Returns first ∧
    world s' = w1.
Proof.
  intros Hknown Hpersist Hknown1 Hpersist1.
  pose proof (run_present_apply_returns salt name value config w update w1
                Hknown Hpersist) as Hfirst.
  unfold run in *. cbn [present_times]. unfold mbind, M_bind.
  rewrite Hfirst.
  edestruct (present_times_already_set salt name value config w1 Hknown1 Hpersist1 n)
    as [log' Hrest].
  rewrite Hrest.
  eexists _, _. split; [reflexivity|]. split; reflexivity.
Qed.

Lemma present_apply_idempotent_witness :
  ∃ first s',
    run (present_times Minion.salt false 4 "vm.swappiness" (Py.PInt 20)
           (Some "/etc/sysctl.conf")) Minion.fresh
    = (Returns
         (first ::
          replicate 3
            {| Ret.name := "vm.swappiness"; Ret.result := Some true; Ret.changes := ∅;
               Ret.comment := "Sysctl value vm.swappiness = 20 is already set" |}),
       s') ∧
    (run (present Minion.salt false "vm.swappiness" (Py.PInt 20)
            (Some "/etc/sysctl.conf")) Minion.fresh).1 = Returns first ∧
    world s'
    = (Minion.persist "vm.swappiness" (Py.PInt 20) "/etc/sysctl.conf" Minion.fresh).2.
Proof.
  apply (present_apply_idempotent Minion.salt "vm.swappiness" (Py.PInt 20)
           (Some "/etc/sysctl.conf") Minion.fresh
           (Minion.persist "vm.swappiness" (Py.PInt 20) "/etc/sysctl.conf"
              Minion.fresh).2
           "Updated" 3); reflexivity.
Defined.

(** * Further properties of [present] *)

(** Case analysis on the five ways a call of [present] can go, for a goal
    that mentions [run (present salt opts_test name value config) w]. *)
Ltac present_paths salt opts_test name value config w :=
  let Hknown := fresh "Hknown" in
  destruct (Py.contains "unknown oid" (sysctl_get salt name w)) eqn:Hknown;
  [ rewrite (run_present_unknown salt opts_test name value config w Hknown)
  | destruct opts_test;
    [ let Hshow := fresh "Hshow" in
      destruct (sysctl_show salt (resolved_config salt config w) w !! name)
        as [persisted|] eqn:Hshow;
      [ rewrite (run_present_test_found salt name value config w persisted Hknown Hshow)
      | rewrite (run_present_test_missing salt name value config w Hknown Hshow) ]
    | let Hpersist := fresh "Hpersist" in
      destruct (sysctl_persist salt name value (resolved_config salt config w) w)
        as [[exc|update] w'] eqn:Hpersist;
      [ rewrite (run_present_apply_raises salt name value config w exc w' Hknown Hpersist)
      | rewrite (run_present_apply_returns salt name value config w update w'
                   Hknown Hpersist) ] ] ].

(** ** Which exceptions leave [present] *)

(** X1. The only exception that leaves [present] is the [KeyError] of line
    76: a call raises exactly when [test] is set, the parameter is known to
    the system and the mapping from [sysctl.show] has no entry for [name],
    and what it raises is [KeyError(name)]. With [test] unset nothing is
    raised, a [CommandExecutionError] of [sysctl.persist] included. *)
Theorem present_raises_iff {World} (salt : Salt World) (opts_test : bool)
    (name : string) (value : Py.value) (config : option string) (w : World) (e : exn) :
  (run (present salt opts_test name value config) w).1 = Raises e ↔
    opts_test = true ∧
    Py.contains "unknown oid" (sysctl_get salt name w) = false ∧
    sysctl_show salt (resolved_config salt config w) w !! name = None ∧
    e = KeyError name.
Proof.
  present_paths salt opts_test name value config w; cbn [fst].
  - split; [discriminate | intros (_ & [=] & _)].
  - split; [discriminate | intros (_ & _ & [=] & _)].
  - split; [intros [= <-]; auto | intros (_ & _ & _ & ->); reflexivity].
  - split; [discriminate | intros ([=] & _)].
  - split; [discriminate | intros ([=] & _)].
Qed.

(** ** How the fields of the return value hang together *)

(** X2. Whenever [present] returns, [result] is [False] exactly when the
    parameter is unknown to the system or, with [test] unset,
    [sysctl.persist] raised. *)
Theorem present_result_false_iff {World} (salt : Salt World) (opts_test : bool)
    (name : string) (value : Py.value) (config : option string) (w : World)
    (ret : Ret.t) (s' : state World) :
  run (present salt opts_test name value config) w = (Returns ret, s') →
  Ret.result ret = Some false ↔
    Py.contains "unknown oid" (sysctl_get salt name w) = true ∨
    (opts_test = false ∧
     ∃ exc w', sysctl_persist salt name value (resolved_config salt config w) w
               = (PersistRaises exc, w')).
Proof.
  present_paths salt opts_test name value config w.
  - intros [= <- _]. cbn. split; auto.
  - intros [= <- _]. split.
    + destruct (Py.split_eq (sysctl_get salt name w) (Py.str value)),
        (Py.split_eq (Py.str persisted) (Py.str value)); discriminate.
    + intros [[=] | [[=] _]].
  - discriminate.
  - intros [= <- _]. cbn. split; [intros _; right; eauto | reflexivity].
  - intros [= <- _]. split.
    + destruct (String.eqb update "Updated"), (String.eqb update "Already set");
        discriminate.
    + intros [[=] | [_ (exc & w'' & [=])]].
Qed.

Lemma present_result_false_iff_witness :
  Ret.result
    {| Ret.name := "vm.swappiness"; Ret.result := Some false; Ret.changes := ∅;
       Ret.comment :=
         "Failed to set vm.swappiness to 20: Could not write to file /etc/sysctl.conf" |}
  = Some false ↔
    Py.contains "unknown oid"
      (sysctl_get Minion.salt "vm.swappiness" (Minion.read_only Minion.fresh)) = true ∨
    (false = false ∧
     ∃ exc w',
       sysctl_persist Minion.salt "vm.swappiness" (Py.PInt 20)
         (resolved_config Minion.salt (Some "/etc/sysctl.conf")
            (Minion.read_only Minion.fresh))
         (Minion.read_only Minion.fresh)
       = (PersistRaises exc, w')).
Proof.
  apply (present_result_false_iff Minion.salt false "vm.swappiness" (Py.PInt 20)
           (Some "/etc/sysctl.conf") (Minion.read_only Minion.fresh) _
           (run (present Minion.salt false "vm.swappiness" (Py.PInt 20)
                   (Some "/etc/sysctl.conf")) (Minion.read_only Minion.fresh)).2).
  reflexivity.
Defined.

(** X3. Whenever [present] returns, [result] is [None] exactly when [test]
    is set and [changes] is not empty: a pending result always comes with
    the changes it announces, and a call that applies never answers
    [None]. *)
Theorem present_result_none_iff {World} (salt : Salt World) (opts_test : bool)
    (name : string) (value : Py.value) (config : option string) (w : World)
    (ret : Ret.t) (s' : state World) :
  run (present salt opts_test name value config) w = (Returns ret, s') →
  Ret.result ret = None ↔ opts_test = true ∧ Ret.changes ret ≠ ∅.
Proof.
  present_paths salt opts_test name value config w.
  - intros [= <- _]. cbn. split; [discriminate | intros [_ Hne]; congruence].
  - intros [= <- _].
    destruct (Py.split_eq (sysctl_get salt name w) (Py.str value)),
      (Py.split_eq (Py.str persisted) (Py.str value)); cbn.
    + split; [discriminate | intros [_ Hne]; congruence].
    + split; [intros _; split; [reflexivity | apply insert_non_empty] | reflexivity].
    + split; [intros _; split; [reflexivity | apply insert_non_empty] | reflexivity].
    + split; [intros _; split; [reflexivity | apply map_non_empty_singleton]
             | reflexivity].
  - discriminate.
  - intros [= <- _]. cbn. split; [discriminate | intros [[=] _]].
  - intros [= <- _]. split; [|intros [[=] _]].
    destruct (String.eqb update "Updated"), (String.eqb update "Already set");
      discriminate.
Qed.

Lemma present_result_none_iff_witness :
  Ret.result
    {| Ret.name := "vm.swappiness"; Ret.result := None;
       Ret.changes := {[ "new" := Py.PInt 20 ]};
       Ret.comment := "Sysctl option set to be changed." |} = None ↔
    true = true ∧
    Ret.changes
      {| Ret.name := "vm.swappiness"; Ret.result := None;
         Ret.changes := {[ "new" := Py.PInt 20 ]};
         Ret.comment := "Sysctl option set to be changed." |} ≠ ∅.
Proof.
  apply (present_result_none_iff Minion.salt true "vm.swappiness" (Py.PInt 20)
           (Some "/etc/sysctl.conf") Minion.fresh _
           (run (present Minion.salt true "vm.swappiness" (Py.PInt 20)
                   (Some "/etc/sysctl.conf")) Minion.fresh).2).
  reflexivity.
Defined.

(** X4. Whenever [present] returns, the comment is empty in one case only:
    [test] is unset, the parameter is known and [sysctl.persist] returned a
    string other than "Updated" and "Already set". Every other outcome
    comes with a comment. *)
Theorem present_comment_empty_iff {World} (salt : Salt World) (opts_test : bool)
    (name : string) (value : Py.value) (config : option string) (w : World)
    (ret : Ret.t) (s' : state World) :
  run (present salt opts_test name value config) w = (Returns ret, s') →
  Ret.comment ret = "" ↔
    Py.contains "unknown oid" (sysctl_get salt name w) = false ∧
    opts_test = false ∧
    ∃ update w',
      sysctl_persist salt name value (resolved_config salt config w) w
      = (PersistReturns update, w') ∧
      update ≠ "Updated" ∧ update ≠ "Already set".
Proof.
  present_paths salt opts_test name value config w.
  - intros [= <- _]. cbn. split; [discriminate | intros ([=] & _)].
  - intros [= <- _]. split; [|intros (_ & [=] & _)].
    destruct (Py.split_eq (sysctl_get salt name w) (Py.str value)),
      (Py.split_eq (Py.str persisted) (Py.str value)); discriminate.
  - discriminate.
  - intros [= <- _]. cbn. split; [discriminate|].
    intros (_ & _ & update & w'' & [=] & _).
  - intros [= <- _].
    destruct (String.eqb update "Updated") eqn:Hupdated;
      [|destruct (String.eqb update "Already set") eqn:Halready]; cbn.
    + apply String.eqb_eq in Hupdated as ->.
      split; [discriminate|]. intros (_ & _ & u & w'' & [= <- _] & Hne & _).
      contradiction.
    + apply String.eqb_eq in Halready as ->.
      split; [discriminate|]. intros (_ & _ & u & w'' & [= <- _] & _ & Hne).
      contradiction.
    + apply String.eqb_neq in Hupdated, Halready.
      split; [|reflexivity]. intros _. repeat split. eauto.
Qed.

Lemma present_comment_empty_iff_witness :
  Ret.comment
    {| Ret.name := "vm.swappiness"; Ret.result := Some true;
       Ret.changes := {[ "vm.swappiness" := Py.PInt 20 ]};
       Ret.comment := "Updated sysctl value vm.swappiness = 20" |} = "" ↔
    Py.contains "unknown oid" (sysctl_get Minion.salt "vm.swappiness" Minion.fresh)
    = false ∧
    false = false ∧
    ∃ update w',
      sysctl_persist Minion.salt "vm.swappiness" (Py.PInt 20)
        (resolved_config Minion.salt (Some "/etc/sysctl.conf") Minion.fresh) Minion.fresh
      = (PersistReturns update, w') ∧
      update ≠ "Updated" ∧ update ≠ "Already set".
Proof.
  apply (present_comment_empty_iff Minion.salt false "vm.swappiness" (Py.PInt 20)
           (Some "/etc/sysctl.conf") Minion.fresh _
           (run (present Minion.salt false "vm.swappiness" (Py.PInt 20)
                   (Some "/etc/sysctl.conf")) Minion.fresh).2).
  reflexivity.
Defined.

(** X5. With [test] set, non-empty [changes] have no key besides [old] and
    [new], and always have [new], whose string form is the string form of
    the wanted value, whichever of the three branches filled them. *)
Theorem present_test_changes_new {World} (salt : Salt World)
    (name : string) (value : Py.value) (config : option string) (w : World)
    (ret : Ret.t) (s' : state World) :
  run (present salt true name value config) w = (Returns ret, s') →
  Ret.changes ret ≠ ∅ →
  Py.str <$> (Ret.changes ret !! "new") = Some (Py.str value) ∧
  dom (Ret.changes ret) ⊆ ({[ "old"; "new" ]} : gset string).
Proof.
  destruct (Py.contains "unknown oid" (sysctl_get salt name w)) eqn:Hknown.
  { rewrite (run_present_unknown salt true name value config w Hknown).
    intros [= <- _]. cbn. congruence. }
  destruct (sysctl_show salt (resolved_config salt config w) w !! name)
    as [persisted|] eqn:Hshow.
  2:{ rewrite (run_present_test_missing salt name value config w Hknown Hshow).
      discriminate. }
  rewrite (run_present_test_found salt name value config w persisted Hknown Hshow).
  intros [= <- _].
  destruct (Py.split_eq (sysctl_get salt name w) (Py.str value)),
    (Py.split_eq (Py.str persisted) (Py.str value)); cbn [Ret.changes].
  - congruence.
  - intros _. split.
    + rewrite lookup_insert_ne by discriminate. rewrite lookup_singleton_eq. reflexivity.
    + rewrite dom_insert_L, dom_singleton_L. set_solver.
  - intros _. split.
    + rewrite lookup_insert_ne by discriminate. rewrite lookup_singleton_eq. reflexivity.
    + rewrite dom_insert_L, dom_singleton_L. set_solver.
  - intros _. split.
    + rewrite lookup_singleton_eq. reflexivity.
    + rewrite dom_singleton_L. set_solver.
Qed.

Lemma present_test_changes_new_witness :
  Py.str <$> (({[ "old" := Py.PStr "10"; "new" := Py.PStr "20" ]} : gmap string Py.value)
              !! "new")
  = Some (Py.str (Py.PInt 20)).
Proof.
  refine (proj1 (present_test_changes_new Minion.salt "vm.swappiness" (Py.PInt 20) None
                   (Minion.holding "vm.swappiness" "10" "20")
                   {| Ret.name := "vm.swappiness"; Ret.result := None;
                      Ret.changes := {[ "old" := Py.PStr "10"; "new" := Py.PStr "20" ]};
                      Ret.comment := "Current running sysctl configuration is different from config. Will adjust running sysctl value." |}
                   (run (present Minion.salt true "vm.swappiness" (Py.PInt 20) None)
                      (Minion.holding "vm.swappiness" "10" "20")).2
                   _ _)).
  - reflexivity.
  - apply insert_non_empty.
Defined.

(** ** What is called, and on which file *)

(** X6. With [test] unset and a parameter the system knows, [present] calls
    [sysctl.persist] once, with the name, the value as it was given and the
    resolved configuration file, never calls [sysctl.show], and leaves the
    minion exactly as [sysctl.persist] left it, also when that call raised:
    nothing is rolled back. *)
Theorem present_apply_calls {World} (salt : Salt World)
    (name : string) (value : Py.value) (config : option string) (w : World) :
  Py.contains "unknown oid" (sysctl_get salt name w) = false →
  calls (run (present salt false name value config) w).2
  = CallGet name ::
      match config, sysctl_default_config salt with
      | None, Some _ => [CallDefaultConfig]
      | _, _ => []
      end
      ++ [CallPersist name value (resolved_config salt config w)] ∧
  world (run (present salt false name value config) w).2
  = (sysctl_persist salt name value (resolved_config salt config w) w).2.
Proof.
  intros Hknown.
  destruct (sysctl_persist salt name value (resolved_config salt config w) w)
    as [[exc|update] w'] eqn:Hpersist.
  - rewrite (run_present_apply_raises salt name value config w exc w' Hknown Hpersist).
    split; reflexivity.
  - rewrite (run_present_apply_returns salt name value config w update w' Hknown Hpersist).
    split; reflexivity.
Qed.

Lemma present_apply_calls_witness :
  calls (run (present Minion.salt false "vm.swappiness" (Py.PInt 20) None)
             (Minion.read_only Minion.fresh)).2
  = [CallGet "vm.swappiness"; CallDefaultConfig;
     CallPersist "vm.swappiness" (Py.PInt 20) "/etc/sysctl.d/99-salt.conf"] ∧
  world (run (present Minion.salt false "vm.swappiness" (Py.PInt 20) None)
             (Minion.read_only Minion.fresh)).2
  = Minion.read_only Minion.fresh.
Proof.
  apply (present_apply_calls Minion.salt "vm.swappiness" (Py.PInt 20) None
           (Minion.read_only Minion.fresh)).
  reflexivity.
Defined.

(** X7. When [config] is given, [sysctl.default_config] is never called
    and every other call works on that file: the log holds nothing but
    [sysctl.get(name)], [sysctl.show(config_file=config)] and
    [sysctl.persist(name, value, config)]. *)
Theorem present_explicit_config {World} (salt : Salt World) (opts_test : bool)
    (name : string) (value : Py.value) (config : string) (w : World) :
  Forall (λ c, c = CallGet name ∨ c = CallShow config ∨ c = CallPersist name value config)
    (calls (run (present salt opts_test name value (Some config)) w).2).
Proof.
  present_paths salt opts_test name value (Some config) w; cbn;
    repeat (constructor; [solve [auto]|]); constructor.
Qed.

(** X8. When [config] is not given and the loader has no
    [sysctl.default_config], the file worked on is [/etc/sysctl.conf]: the
    log holds nothing but [sysctl.get(name)] and calls of [sysctl.show] and
    [sysctl.persist] on that path. *)
Theorem present_fallback_config {World} (salt : Salt World) (opts_test : bool)
    (name : string) (value : Py.value) (w : World) :
  sysctl_default_config salt = None →
  Forall (λ c, c = CallGet name ∨ c = CallShow "/etc/sysctl.conf"
               ∨ c = CallPersist name value "/etc/sysctl.conf")
    (calls (run (present salt opts_test name value None) w).2).
Proof.
  intros Hnone.
  present_paths salt opts_test name value (@None string) w;
    unfold resolve_calls, resolved_config; rewrite Hnone; cbn;
    repeat (constructor; [solve [auto]|]); constructor.
Qed.

Lemma present_fallback_config_witness :
  Forall (λ c, c = CallGet "vm.swappiness" ∨ c = CallShow "/etc/sysctl.conf"
               ∨ c = CallPersist "vm.swappiness" (Py.PInt 20) "/etc/sysctl.conf")
    (calls (run (present Minion.salt_plain false "vm.swappiness" (Py.PInt 20) None)
                Minion.fresh).2).
Proof.
  apply (present_fallback_config Minion.salt_plain false "vm.swappiness" (Py.PInt 20)
           Minion.fresh).
  reflexivity.
Defined.

(** ** Helper facts for sequences of calls *)

Lemma append_empty_r (s : string) : s ++ "" = s.
Proof.
  induction s as [|c s IH]; [reflexivity|].
  change (String c (s ++ "") = String c s). rewrite IH. reflexivity.
Qed.

Lemma append_snoc (a : string) (c : ascii) (b : string) :
  (a ++ String c "") ++ b = a ++ String c b.
Proof.
  induction a as [|x a IH]; [reflexivity|].
  change (String x ((a ++ String c "") ++ b) = String x (a ++ String c b)).
  rewrite IH. reflexivity.
Qed.

(** A string without white space is scanned as one token, joined to the
    token under way. *)
Lemma split_from_no_space (s tok : string) :
  forallb (λ c, negb (Py.isspace c)) (list_ascii_of_string s) = true →
  Py.split_from tok s = match tok ++ s with EmptyString => [] | t => [t] end.
Proof.
  revert tok. induction s as [|c s IH]; intros tok Hs.
  - cbn [Py.split_from]. rewrite append_empty_r. destruct tok; reflexivity.
  - cbn in Hs. apply andb_true_iff in Hs as [Hc Hs].
    apply negb_true_iff in Hc. cbn [Py.split_from]. rewrite Hc.
    rewrite (IH _ Hs), append_snoc. reflexivity.
Qed.

Lemma split_single_token (s : string) : single_token s = true → Py.split s = [s].
Proof.
  destruct s as [|c s]; [discriminate|]. unfold single_token, Py.split. intros Hs.
  rewrite (split_from_no_space _ "" Hs). reflexivity.
Qed.

Section Sequences.
Context {World : Type} (salt : Salt World).
Implicit Types (name : string) (value : Py.value) (config : option string) (w : World).

(** With [test] set the minion is left as it was, however the call ends. *)
Lemma run_present_test_world name value config w :
  world (run (present salt true name value config) w).2 = w.
Proof.
  destruct (Py.contains "unknown oid" (sysctl_get salt name w)) eqn:Hknown.
  { rewrite (run_present_unknown salt true name value config w Hknown). reflexivity. }
  destruct (sysctl_show salt (resolved_config salt config w) w !! name)
    as [persisted|] eqn:Hshow.
  - rewrite (run_present_test_found salt name value config w persisted Hknown Hshow).
    reflexivity.
  - rewrite (run_present_test_missing salt name value config w Hknown Hshow).
    reflexivity.
Qed.

(** With [test] unset the call returns. *)
Lemma run_present_apply_total name value config w :
  ∃ ret s', run (present salt false name value config) w = (Returns ret, s').
Proof.
  destruct (Py.contains "unknown oid" (sysctl_get salt name w)) eqn:Hknown.
  { rewrite (run_present_unknown salt false name value config w Hknown). eauto. }
  destruct (sysctl_persist salt name value (resolved_config salt config w) w)
    as [[exc|update] w'] eqn:Hpersist.
  - rewrite (run_present_apply_raises salt name value config w exc w' Hknown Hpersist).
    eauto.
  - rewrite (run_present_apply_returns salt name value config w update w' Hknown Hpersist).
    eauto.
Qed.

(** A dry run that returns can be repeated on any log, with the same
    return value and the same minion. *)
Lemma present_times_test name value config w ret s1 :
  run (present salt true name value config) w = (Returns ret, s1) →
  ∀ (n : nat) (log : list call),
    ∃ log',
      present_times salt true n name value config {| world := w; calls := log |}
      = (Returns (replicate n ret), {| world := w; calls := log' |}).
Proof.
  intros Hrun n. induction n as [|n IH]; intros log.
  - exists log. reflexivity.
  - pose proof (run_present_test_world name value config w) as Hworld.
    rewrite Hrun in Hworld. cbn [snd] in Hworld.
    cbn [present_times replicate]. unfold mbind, M_bind at 1.
    rewrite present_log_frame, Hrun. cbn [fst snd]. rewrite Hworld.
    unfold M_bind. edestruct IH as [log' Hrest]. rewrite Hrest.
    exists log'. reflexivity.
Qed.
End Sequences.

(** ** Dry runs *)

(** X9. With [test] set, [present] sees the wanted value only through its
    tokens: two values whose string forms split into the same tokens (the
    integer 20 and the strings "20" and " 20 ", say) get the same [result],
    the same calls, and [changes] that are empty for both or for neither. *)
Theorem present_test_same_tokens {World} (salt : Salt World)
    (name : string) (value value' : Py.value) (config : option string) (w : World)
    (ret : Ret.t) (s1 : state World) :
  Py.split (Py.str value) = Py.split (Py.str value') →
  run (present salt true name value config) w = (Returns ret, s1) →
  ∃ ret',
    run (present salt true name value' config) w = (Returns ret', s1) ∧
    Ret.result ret' = Ret.result ret ∧
    (Ret.changes ret' = ∅ ↔ Ret.changes ret = ∅).
Proof.
  intros Htokens.
  destruct (Py.contains "unknown oid" (sysctl_get salt name w)) eqn:Hknown.
  { rewrite !(run_present_unknown salt true name _ config w Hknown).
    intros [= <- <-]. eexists. split; [reflexivity|]. split; reflexivity. }
  destruct (sysctl_show salt (resolved_config salt config w) w !! name)
    as [persisted|] eqn:Hshow.
  2:{ rewrite (run_present_test_missing salt name value config w Hknown Hshow).
      discriminate. }
  rewrite !(run_present_test_found salt name _ config w persisted Hknown Hshow).
  intros [= <- <-]. eexists. split; [reflexivity|].
  unfold Py.split_eq. rewrite <- Htokens.
  destruct (bool_decide (Py.split (sysctl_get salt name w) = Py.split (Py.str value))),
    (bool_decide (Py.split (Py.str persisted) = Py.split (Py.str value)));
    cbn; split; try reflexivity; split; intros H; exfalso; revert H;
    first [apply insert_non_empty | apply map_non_empty_singleton].
Qed.

Lemma present_test_same_tokens_witness :
  ∃ ret',
    run (present Minion.salt true "vm.swappiness" (Py.PStr " 20 ") None)
      (Minion.holding "vm.swappiness" "10" "20")
    = (Returns ret',
       (run (present Minion.salt true "vm.swappiness" (Py.PInt 20) None)
          (Minion.holding "vm.swappiness" "10" "20")).2) ∧
    Ret.result ret' = None ∧
    (Ret.changes ret' = ∅ ↔
     ({[ "old" := Py.PStr "10"; "new" := Py.PStr "20" ]} : gmap string Py.value) = ∅).
Proof.
  refine (present_test_same_tokens Minion.salt "vm.swappiness" (Py.PInt 20)
           (Py.PStr " 20 ") None (Minion.holding "vm.swappiness" "10" "20")
           {| Ret.name := "vm.swappiness"; Ret.result := None;
              Ret.changes := {[ "old" := Py.PStr "10"; "new" := Py.PStr "20" ]};
              Ret.comment := "Current running sysctl configuration is different from config. Will adjust running sysctl value." |}
           (run (present Minion.salt true "vm.swappiness" (Py.PInt 20) None)
              (Minion.holding "vm.swappiness" "10" "20")).2 _ _);
    reflexivity.
Defined.

(** X10. For values that are one token each, a dry run answers [True] only
    on exact agreement: [result] is [True] exactly when the running value
    and the configured value are both the very string form of the wanted
    value. *)
Theorem present_test_true_exact {World} (salt : Salt World)
    (name : string) (value : Py.value) (config : option string) (w : World)
    (persisted : Py.value) :
  Py.contains "unknown oid" (sysctl_get salt name w) = false →
  sysctl_show salt (resolved_config salt config w) w !! name = Some persisted →
  single_token (sysctl_get salt name w) = true →
  single_token (Py.str persisted) = true →
  single_token (Py.str value) = true →
  ∃ ret,
    (run (present salt true name value config) w).1 = Returns ret ∧
    (Ret.result ret = Some true ↔
     sysctl_get salt name w = Py.str value ∧ Py.str persisted = Py.str value).
Proof.
  intros Hknown Hshow Hcur Hper Hval.
  rewrite (run_present_test_found salt name value config w persisted Hknown Hshow).
  eexists. split; [reflexivity|].
  unfold Py.split_eq.
  rewrite (split_single_token _ Hcur), (split_single_token _ Hper),
    (split_single_token _ Hval).
  destruct (decide (sysctl_get salt name w = Py.str value)) as [Hc|Hc];
    destruct (decide (Py.str persisted = Py.str value)) as [Hp|Hp].
  - rewrite !bool_decide_eq_true_2 by congruence. cbn. split; auto.
  - rewrite bool_decide_eq_true_2 by congruence.
    rewrite bool_decide_eq_false_2 by congruence. cbn.
    split; [discriminate | intros [_ ?]; contradiction].
  - rewrite bool_decide_eq_false_2 by congruence.
    rewrite bool_decide_eq_true_2 by congruence. cbn.
    split; [discriminate | intros [? _]; contradiction].
  - rewrite !bool_decide_eq_false_2 by congruence. cbn.
    split; [discriminate | intros [? _]; contradiction].
Qed.

Lemma present_test_true_exact_witness :
  ∃ ret,
    (run (present Minion.salt true "vm.swappiness" (Py.PInt 20) None)
         (Minion.holding "vm.swappiness" "20" "200")).1 = Returns ret ∧
    (Ret.result ret = Some true ↔
     sysctl_get Minion.salt "vm.swappiness" (Minion.holding "vm.swappiness" "20" "200")
     = Py.str (Py.PInt 20) ∧
     Py.str (Py.PStr "200") = Py.str (Py.PInt 20)).
Proof.
  apply (present_test_true_exact Minion.salt "vm.swappiness" (Py.PInt 20) None
           (Minion.holding "vm.swappiness" "20" "200") (Py.PStr "200"));
    reflexivity.
Defined.

(** X11. A dry run can be repeated: if a call with [test] set returns, any
    number of such calls in a row return the same dictionary each time and
    leave the minion as it was. *)
Theorem present_test_repeatable {World} (salt : Salt World)
    (name : string) (value : Py.value) (config : option string) (w : World)
    (ret : Ret.t) (s1 : state World) (n : nat) :
  run (present salt true name value config) w = (Returns ret, s1) →
  ∃ s',
    run (present_times salt true n name value config) w
    = (Returns (replicate n ret), s') ∧
    world s' = w.
Proof.
  intros Hrun.
  destruct (present_times_test salt name value config w ret s1 Hrun n [])
    as [log' Hrest].
  unfold run. rewrite Hrest. eexists. split; reflexivity.
Qed.

Lemma present_test_repeatable_witness :
  ∃ s',
    run (present_times Minion.salt true 3 "vm.swappiness" (Py.PInt 20) None)
      (Minion.holding "vm.swappiness" "10" "10")
    = (Returns
         (replicate 3
            {| Ret.name := "vm.swappiness"; Ret.result := None;
               Ret.changes := {[ "new" := Py.PInt 20 ]};
               Ret.comment := "Sysctl option set to be changed." |}),
       s') ∧
    world s' = Minion.holding "vm.swappiness" "10" "10".
Proof.
  refine (present_test_repeatable Minion.salt "vm.swappiness" (Py.PInt 20) None
            (Minion.holding "vm.swappiness" "10" "10") _
            (run (present Minion.salt true "vm.swappiness" (Py.PInt 20) None)
               (Minion.holding "vm.swappiness" "10" "10")).2
            3 _).
  reflexivity.
Defined.

(** ** Dry run and application together *)

(** X12. A dry run does not disturb the application that follows it: if a
    call with [test] set returns, then a call with [test] unset made right
    after it returns what it would have returned alone and leaves the
    minion as it would have alone; the log is the two logs one after the
    other. *)
Theorem present_test_then_apply {World} (salt : Salt World)
    (name : string) (value : Py.value) (config : option string) (w : World)
    (r1 : Ret.t) (s1 : state World) :
  run (present salt true name value config) w = (Returns r1, s1) →
  ∃ r2 s2,
    run (present salt false name value config) w = (Returns r2, s2) ∧
    run (a ← present salt true name value config;
         b ← present salt false name value config;
         mret (a, b)) w
    = (Returns (r1, r2), {| world := world s2; calls := calls s1 ++ calls s2 |}).
Proof.
  intros Hrun.
  destruct (run_present_apply_total salt name value config w) as (r2 & s2 & Happly).
  exists r2, s2. split; [exact Happly|].
  pose proof (run_present_test_world salt name value config w) as Hworld.
  rewrite Hrun in Hworld. cbn [snd] in Hworld.
  unfold run in *. unfold mbind, M_bind at 1. rewrite Hrun.
  destruct s1 as [w1 log1]. cbn [world] in Hworld. subst w1.
  unfold M_bind. rewrite present_log_frame. unfold run. rewrite Happly.
  reflexivity.
Qed.

Lemma present_test_then_apply_witness :
  ∃ r2 s2,
    run (present Minion.salt false "vm.swappiness" (Py.PInt 20) (Some "/etc/sysctl.conf"))
      Minion.fresh = (Returns r2, s2) ∧
    run (a ← present Minion.salt true "vm.swappiness" (Py.PInt 20) (Some "/etc/sysctl.conf");
         b ← present Minion.salt false "vm.swappiness" (Py.PInt 20) (Some "/etc/sysctl.conf");
         mret (a, b)) Minion.fresh
    = (Returns
         ({| Ret.name := "vm.swappiness"; Ret.result := None;
             Ret.changes := {[ "new" := Py.PInt 20 ]};
             Ret.comment := "Sysctl option set to be changed." |}, r2),
       {| world := world s2;
          calls := [CallGet "vm.swappiness"; CallShow "/etc/sysctl.conf"] ++ calls s2 |}).
Proof.
  refine (present_test_then_apply Minion.salt "vm.swappiness" (Py.PInt 20)
            (Some "/etc/sysctl.conf") Minion.fresh _
            {| world := Minion.fresh;
               calls := [CallGet "vm.swappiness"; CallShow "/etc/sysctl.conf"] |} _).
  reflexivity.
Defined.

(** X13. The "already set" answer is the same dictionary on both sides: if
    a dry run returns [result] [True], then a call with [test] unset on
    which [sysctl.persist] answers "Already set" returns exactly what the
    dry run returned. *)
Theorem present_already_set_agrees {World} (salt : Salt World)
    (name : string) (value : Py.value) (config : option string) (w w' : World)
    (ret : Ret.t) (s1 : state World) :
  run (present salt true name value config) w = (Returns ret, s1) →
  Ret.result ret = Some true →
  sysctl_persist salt name value (resolved_config salt config w) w
  = (PersistReturns "Already set", w') →
  (run (present salt false name value config) w).1 = Returns ret.
Proof.
  destruct (Py.contains "unknown oid" (sysctl_get salt name w)) eqn:Hknown.
  { rewrite (run_present_unknown salt true name value config w Hknown).
    intros [= <- _]. discriminate. }
  destruct (sysctl_show salt (resolved_config salt config w) w !! name)
    as [persisted|] eqn:Hshow.
  2:{ rewrite (run_present_test_missing salt name value config w Hknown Hshow).
      discriminate. }
  rewrite (run_present_test_found salt name value config w persisted Hknown Hshow).
  intros [= <- _] Hresult Hpersist.
  rewrite (run_present_apply_returns salt name value config w _ w' Hknown Hpersist).
  destruct (Py.split_eq (sysctl_get salt name w) (Py.str value)),
    (Py.split_eq (Py.str persisted) (Py.str value)); try discriminate Hresult.
  reflexivity.
Qed.

Lemma present_already_set_agrees_witness :
  (run (present Minion.salt false "vm.swappiness" (Py.PStr "60") (Some "/etc/sysctl.conf"))
       Minion.fresh).1
  = Returns {| Ret.name := "vm.swappiness"; Ret.result := Some true; Ret.changes := ∅;
               Ret.comment := "Sysctl value vm.swappiness = 60 is already set" |}.
Proof.
  refine (present_already_set_agrees Minion.salt "vm.swappiness" (Py.PStr "60")
            (Some "/etc/sysctl.conf") Minion.fresh Minion.fresh _
            (run (present Minion.salt true "vm.swappiness" (Py.PStr "60")
                    (Some "/etc/sysctl.conf")) Minion.fresh).2 _ _ _);
    reflexivity.
Defined.

(** ** What an application depends on *)

(** X14. With [test] unset and a known parameter, the dictionary returned
    depends on nothing but the name, the value and what [sysctl.persist]
    did: two minions, loaders and configuration files on which
    [sysctl.persist] ends the same way get the same dictionary, whatever
    the running and configured values are. *)
Theorem present_apply_depends_on_persist {W1 W2} (salt1 : Salt W1) (salt2 : Salt W2)
    (name : string) (value : Py.value) (config1 config2 : option string)
    (w1 : W1) (w2 : W2) :
  Py.contains "unknown oid" (sysctl_get salt1 name w1) = false →
  Py.contains "unknown oid" (sysctl_get salt2 name w2) = false →
  (sysctl_persist salt1 name value (resolved_config salt1 config1 w1) w1).1
  = (sysctl_persist salt2 name value (resolved_config salt2 config2 w2) w2).1 →
  (run (present salt1 false name value config1) w1).1
  = (run (present salt2 false name value config2) w2).1.
Proof.
  intros Hknown1 Hknown2.
  destruct (sysctl_persist salt1 name value (resolved_config salt1 config1 w1) w1)
    as [[exc1|update1] w1'] eqn:Hpersist1;
    destruct (sysctl_persist salt2 name value (resolved_config salt2 config2 w2) w2)
      as [[exc2|update2] w2'] eqn:Hpersist2;
    cbn [fst]; intros [=]; subst.
  - rewrite (run_present_apply_raises salt1 name value config1 w1 _ _ Hknown1 Hpersist1).
    rewrite (run_present_apply_raises salt2 name value config2 w2 _ _ Hknown2 Hpersist2).
    reflexivity.
  - rewrite (run_present_apply_returns salt1 name value config1 w1 _ _ Hknown1 Hpersist1).
    rewrite (run_present_apply_returns salt2 name value config2 w2 _ _ Hknown2 Hpersist2).
    reflexivity.
Qed.

Lemma present_apply_depends_on_persist_witness :
  (run (present Minion.salt false "vm.swappiness" (Py.PInt 20) None) Minion.fresh).1
  = (run (present Minion.salt_plain false "vm.swappiness" (Py.PInt 20)
            (Some "/etc/sysctl.d/50-tuning.conf"))
         (Minion.holding "vm.swappiness" "10" "20")).1.
Proof.
  apply (present_apply_depends_on_persist Minion.salt Minion.salt_plain
           "vm.swappiness" (Py.PInt 20) None (Some "/etc/sysctl.d/50-tuning.conf")
           Minion.fresh (Minion.holding "vm.swappiness" "10" "20"));
    reflexivity.
Defined.
